(** * btgym.research.gps.aac: the guided actor-critic loss

    A shallow embedding of [GuidedAAC] (src/btgym/research/gps/aac.py): its
    constructor and its [_make_loss] method, which adds an imitation loss on
    expert actions to the loss of the base trainer,

      L_gps = aac_lambda * L_a3c + guided_lambda * L_im.

    The class lives among collaborators that are not part of the file: the
    base trainer [BaseAAC], the expert-loss callable, the logger and the
    tensor library.  The methods are written in a small monad that threads
    the object's state, propagates Python exceptions and records every
    operation the method performs on its surroundings; the collaborators are
    a parameter of the whole development. *)

From Stdlib Require Import ZArith String Ascii List Bool Lia Floats.
From stdpp Require Import base option strings pretty gmap.

Local Open Scope string_scope.
Local Open Scope list_scope.

(** ** Python values, exceptions and outcomes *)

Module Py.

(** A raised exception: its class and its argument. *)
Record exn := Exn { exn_class : string; exn_arg : string }.

(** The outcome of evaluating an expression or a call. *)
Inductive result (A : Type) : Type :=
| Ok (a : A)
| Raise (e : exn).
Arguments Ok {A} a.
Arguments Raise {A} e.

Definition RuntimeError (msg : string) : exn := Exn "RuntimeError" msg.

Definition AttributeError (attr : string) : exn :=
  Exn "AttributeError"
      ("'GuidedAAC' object has no attribute '" +:+ attr +:+ "'").

(** Values passed through [**kwargs]; the class never inspects them. *)
Inductive value :=
| PyNone
| PyBool (b : bool)
| PyInt (n : Z)
| PyFloat (x : float)
| PyStr (s : string)
| PyObj (id : nat).

Definition newline : string := String "010"%char EmptyString.

End Py.

(** ** Tensors: the graph built by the arithmetic operators *)

Module TF.

(** A loss is a node of the computation graph.  [Node] is a tensor built
    elsewhere (by the base trainer or by the expert loss); multiplying a
    tensor by a Python float first turns the float into a constant. *)
Inductive tensor :=
| Node (name : string)
| Const (c : float)
| Mul (x y : tensor)
| Add (x y : tensor).

(** A summary operation, known by its tag. *)
Record summary := Summary { tag : string }.

(** [c * t] for a Python float [c]: [Tensor.__rmul__]. *)
Definition rmul (c : float) (t : tensor) : tensor := Mul (Const c) t.

(** [x + y] on tensors: [Tensor.__add__]. *)
Definition add (x y : tensor) : tensor := Add x y.

(** The floating-point types of a tensor, with the precision and the
    exponent bound of their IEEE 754 format. *)
Inductive dtype := float16 | float32 | float64.

Definition dtype_prec (d : dtype) : Z :=
  match d with float16 => 11 | float32 => 24 | float64 => 53 end.

Definition dtype_emax (d : dtype) : Z :=
  match d with float16 => 16 | float32 => 128 | float64 => 1024 end.

(** Rounding of a float to the format of [d] (conversion of a constant). *)
Definition cast (d : dtype) (x : spec_float) : spec_float :=
  SFldexp (dtype_prec d) (dtype_emax d) x 0.

(** Multiplication and addition of the format: the IEEE 754 operations,
    rounding to nearest, ties to even, with gradual underflow. *)
Definition fmul (d : dtype) : spec_float -> spec_float -> spec_float :=
  SFmul (dtype_prec d) (dtype_emax d).

Definition fadd (d : dtype) : spec_float -> spec_float -> spec_float :=
  SFadd (dtype_prec d) (dtype_emax d).

(** The value of a tensor of type [d] when the graph is run, given the
    values [feed] of the nodes built elsewhere. *)
Fixpoint eval (d : dtype) (feed : string -> spec_float) (t : tensor)
  : spec_float :=
  match t with
  | Node n => feed n
  | Const c => cast d (Prim2SF c)
  | Mul x y => fmul d (eval d feed x) (eval d feed y)
  | Add x y => fadd d (eval d feed x) (eval d feed y)
  end.

(** A value that the format of [d] can hold. *)
Definition valid (d : dtype) (x : spec_float) : bool :=
  SpecFloat.valid_binary (dtype_prec d) (dtype_emax d) x.

(** A Python float that is zero, of either sign. *)
Definition is_zero (c : float) : bool :=
  match Prim2SF c with S754_zero _ => true | _ => false end.

(** A value of the format of [d] that is not subnormal: a zero, an
    infinity, a NaN or a normal number.  [fmul] and [fadd] are the IEEE
    operations with gradual underflow; kernels that flush subnormal
    values to zero compute the same on values that are regular. *)
Definition regular (d : dtype) (x : spec_float) : bool :=
  match x with
  | S754_finite _ m e =>
      bounded (dtype_prec d) (dtype_emax d) m e
      && (Z.pos (digits2_pos m) =? dtype_prec d)%Z
  | _ => true
  end.

(** No subnormal value occurs when the graph [t] is run: every value fed,
    every constant and every result of an operation is regular. *)
Fixpoint no_subnormal (d : dtype) (feed : string -> spec_float)
    (t : tensor) : bool :=
  match t with
  | Node n => regular d (feed n)
  | Const c => regular d (cast d (Prim2SF c))
  | Mul x y =>
      no_subnormal d feed x && no_subnormal d feed y
      && regular d (fmul d (eval d feed x) (eval d feed y))
  | Add x y =>
      no_subnormal d feed x && no_subnormal d feed y
      && regular d (fadd d (eval d feed x) (eval d feed y))
  end.

(** A value that is neither an infinity nor a NaN. *)
Definition finite (x : spec_float) : bool :=
  match x with
  | S754_zero _ | S754_finite _ _ _ => true
  | S754_infinity _ | S754_nan => false
  end.

(** Numerical equality that holds between a NaN and itself: the same
    float, or two zeros (of any sign). *)
Definition same_number (x y : spec_float) : Prop :=
  match x, y with
  | S754_zero _, S754_zero _ => True
  | _, _ => x = y
  end.

End TF.

(** ** The class [GuidedAAC] *)

Module GuidedAAC.
Import Py TF.

(** *** Collaborating objects *)

(** Expert-loss functions: the three imported from [.loss], or any other
    callable given by the user. *)
Inductive callable :=
| guided_aac_loss_def_0_0
| guided_aac_loss_def_0_1
| guided_aac_loss_def_0_3
| loss_fn (id : nat).

(** Runner functions: the imported default or a user's own. *)
Inductive runner :=
| VerboseEnvRunnerFn
| runner_fn (id : nat).

(** The part of the policy network that the loss reads. *)
Record network := Network { on_logits : tensor; expert_actions : tensor }.

Record logger := Logger { channel : string }.

Inductive level :=
| CRITICAL | ERROR | WARNING | NOTICE | INFO | DEBUG | TRACE.

(** A record handed to the logger by a call of one of its methods;
    [exc_info] is the exception whose traceback is attached, if any.
    What the logger does with the record (its level, its handlers) is
    not part of the model. *)
Record log_record := LogRecord {
  lr_channel : string;
  lr_level : level;
  lr_msg : string;
  lr_exc_info : option exn
}.

(** The keyword arguments of a call of the expert loss. *)
Inductive loss_call :=
| LossCall (pi_actions expert_actions : tensor) (name : string)
           (verbose : bool).

(** The keyword arguments of a call of [BaseAAC.__init__]. *)
Inductive base_call :=
| BaseCall (runner_fn_ref : runner) (_aux_render_modes : list string)
           (name : string) (kwargs : gmap string value).

(** *** The state *)

(** The object under construction or in use, and the records handed to
    the logger so far, one for each call of the logger.  An attribute is
    [None] until it is assigned; [others] are the attributes the class
    itself never names. *)
Record world := World {
  expert_loss : option callable;
  aac_lambda : option float;
  guided_lambda : option float;
  local_network : option network;
  log : option logger;
  others : gmap string value;
  emitted : list log_record
}.

Definition set_expert_loss (f : callable) (w : world) : world :=
  World (Some f) (aac_lambda w) (guided_lambda w) (local_network w)
        (log w) (others w) (emitted w).

Definition set_aac_lambda (c : float) (w : world) : world :=
  World (expert_loss w) (Some c) (guided_lambda w) (local_network w)
        (log w) (others w) (emitted w).

Definition set_guided_lambda (c : float) (w : world) : world :=
  World (expert_loss w) (aac_lambda w) (Some c) (local_network w)
        (log w) (others w) (emitted w).

Definition emit (r : log_record) (w : world) : world :=
  World (expert_loss w) (aac_lambda w) (guided_lambda w) (local_network w)
        (log w) (others w) (emitted w ++ [r]).

(** A freshly allocated object: no attribute yet. *)
Definition fresh : world := World None None None None None ∅ [].

(** *** Operations on the surroundings *)

(** What a method can do besides computing: read or assign an attribute
    of [self], or call a collaborator. *)
Inductive op :=
| Load_expert_loss
| Load_aac_lambda
| Load_guided_lambda
| Load_local_network
| Load_log
| Store_expert_loss (f : callable)
| Store_aac_lambda (c : float)
| Store_guided_lambda (c : float)
| Call_make_base_loss
| Call_expert_loss (f : callable) (kw : loss_call)
| Call_log (lg : logger) (lvl : level) (msg : string)
           (exc_info : option exn)
| Call_base_init (kw : base_call).

(** The type of what an operation returns. *)
Definition ans (c : op) : Type :=
  match c with
  | Load_expert_loss => callable
  | Load_aac_lambda | Load_guided_lambda => float
  | Load_local_network => network
  | Load_log => logger
  | Store_expert_loss _ | Store_aac_lambda _ | Store_guided_lambda _ => unit
  | Call_make_base_loss | Call_expert_loss _ _ =>
      (tensor * list summary)%type
  | Call_log _ _ _ _ => unit
  | Call_base_init _ => unit
  end.

(** The code outside the file.  The methods of [BaseAAC] and the expert
    loss act on the whole state and may raise; [format_1_6f x] is the
    text that [str.format] puts in place of a field [{:1.6f}] for the
    float [x]. *)
Record collaborators := Collaborators {
  BaseAAC_init : base_call -> world -> result unit * world;
  _make_base_loss : world -> result (tensor * list summary) * world;
  call : callable -> loss_call -> world
         -> result (tensor * list summary) * world;
  format_1_6f : float -> string
}.

(** Reading an attribute that was never assigned raises. *)
Definition getattr {A : Type} (attr : string) (v : option A) (w : world)
  : result A * world :=
  match v with
  | Some x => (Ok x, w)
  | None => (Raise (AttributeError attr), w)
  end.

(** The effect of one operation. *)
Definition handle (E : collaborators) (c : op)
  : world -> result (ans c) * world :=
  match c as c0 return world -> result (ans c0) * world with
  | Load_expert_loss => fun w => getattr "expert_loss" (expert_loss w) w
  | Load_aac_lambda => fun w => getattr "aac_lambda" (aac_lambda w) w
  | Load_guided_lambda =>
      fun w => getattr "guided_lambda" (guided_lambda w) w
  | Load_local_network =>
      fun w => getattr "local_network" (local_network w) w
  | Load_log => fun w => getattr "log" (log w) w
  | Store_expert_loss f => fun w => (Ok tt, set_expert_loss f w)
  | Store_aac_lambda x => fun w => (Ok tt, set_aac_lambda x w)
  | Store_guided_lambda x => fun w => (Ok tt, set_guided_lambda x w)
  | Call_make_base_loss => fun w => _make_base_loss E w
  | Call_expert_loss f kw => fun w => call E f kw w
  | Call_log lg lvl msg exc_info =>
      fun w => (Ok tt, emit (LogRecord (channel lg) lvl msg exc_info) w)
  | Call_base_init kw => fun w => BaseAAC_init E kw w
  end.

(** *** The monad of methods *)

(** One performed operation, and the exception it raised, if it did. *)
Record entry := Entry { what : op; raised : option exn }.

(** A method maps the state to the operations it performed, its outcome
    and the state it leaves. *)
Definition M (A : Type) : Type := world -> list entry * result A * world.

Definition ret {A : Type} (a : A) : M A := fun w => ([], Ok a, w).

Definition raise {A : Type} (e : exn) : M A := fun w => ([], Raise e, w).

Definition bind {A B : Type} (m : M A) (k : A -> M B) : M B :=
  fun w =>
    let '(t1, r, w1) := m w in
    match r with
    | Ok a => let '(t2, r2, w2) := k a w1 in (t1 ++ t2, r2, w2)
    | Raise e => (t1, Raise e, w1)
    end.

(** [try: m except: h], the handler being given the caught exception. *)
Definition try_except {A : Type} (m : M A) (h : exn -> M A) : M A :=
  fun w =>
    let '(t1, r, w1) := m w in
    match r with
    | Ok a => (t1, Ok a, w1)
    | Raise e => let '(t2, r2, w2) := h e w1 in (t1 ++ t2, r2, w2)
    end.

Definition outcome_exn {A : Type} (r : result A) : option exn :=
  match r with Ok _ => None | Raise e => Some e end.

Definition perform (E : collaborators) (c : op) : M (ans c) :=
  fun w =>
    let '(r, w1) := handle E c w in
    ([Entry c (outcome_exn r)], r, w1).

Declare Scope method_scope.
Delimit Scope method_scope with method.
Notation "x <- m ;; k" := (bind m (fun x => k))
  (at level 100, m at next level, right associativity) : method_scope.
Notation "m ;; k" := (bind m (fun _ => k))
  (at level 100, right associativity) : method_scope.

(** *** Parameters of the constructor *)

(** A call of the constructor: each named parameter is given or left
    out, and [given_kwargs] are the keywords that name no parameter. *)
Record init_call := InitCall {
  given_expert_loss : option callable;
  given_aac_lambda : option float;
  given_guided_lambda : option float;
  given_runner_fn_ref : option runner;
  given__aux_render_modes : option (list string);
  given_name : option string;
  given_kwargs : gmap string value
}.

(** The parameters once bound. *)
Inductive init_params :=
| InitParams (expert_loss : callable) (aac_lambda guided_lambda : float)
             (runner_fn_ref : runner) (_aux_render_modes : list string)
             (name : string) (kwargs : gmap string value).

(** Binding: a parameter left out takes the default of the signature. *)
Definition bind_params (c : init_call) : init_params :=
  InitParams
    (default guided_aac_loss_def_0_3 (given_expert_loss c))
    (default 1%float (given_aac_lambda c))
    (default 1%float (given_guided_lambda c))
    (default VerboseEnvRunnerFn (given_runner_fn_ref c))
    (default ["action_prob"; "value_fn"; "lstm_1_h"; "lstm_2_h"]
             (given__aux_render_modes c))
    (default "GuidedA3C" (given_name c))
    (given_kwargs c).

(** A call without any argument. *)
Definition no_arguments : init_call :=
  InitCall None None None None None None ∅.

(** *** The methods *)

Section Methods.
Variable E : collaborators.

Local Open Scope method_scope.

Definition init_msg : string :=
  "GuidedAAC.__init()__ exception occurred" +:+
  newline +:+ newline +:+
  "Press `Ctrl-C` or jupyter:[Kernel]->[Interrupt] for clean exit." +:+
  newline.

(** The body of [__init__], the parameters being bound.  The bare
    [except:] catches every exception; [self.log.exception(msg)] hands the
    logger a record at level error with the exception being handled. *)
Definition init_body (p : init_params) : M unit :=
  match p with
  | InitParams expert_loss aac_lambda guided_lambda
               runner_fn_ref _aux_render_modes name kwargs =>
      try_except
        (perform E (Store_expert_loss expert_loss) ;;
         perform E (Store_aac_lambda aac_lambda) ;;
         perform E (Store_guided_lambda guided_lambda) ;;
         perform E (Call_base_init
                      (BaseCall runner_fn_ref _aux_render_modes
                                name kwargs)))
        (fun e =>
           let msg := init_msg in
           lg <- perform E Load_log ;;
           perform E (Call_log lg ERROR msg (Some e)) ;;
           raise (RuntimeError msg))
  end.

Definition __init__ (c : init_call) : M unit := init_body (bind_params c).

(** ['aac_lambda: {:1.6f}, guided_lambda: {:1.6f}'.format(a, l)] *)
Definition notice_msg (a l : float) : string :=
  "aac_lambda: " +:+ format_1_6f E a +:+
  ", guided_lambda: " +:+ format_1_6f E l.

(** Augments base loss with expert actions imitation loss.  The
    attributes are read in the order in which Python evaluates them;
    [summaries += guided_summary] extends the list of the base loss, which
    is the list returned. *)
Definition _make_loss : M (tensor * list summary) :=
  base <- perform E Call_make_base_loss ;;
  let '(aac_loss, summaries) := base in
  f <- perform E Load_expert_loss ;;
  net_pi <- perform E Load_local_network ;;
  net_ex <- perform E Load_local_network ;;
  guided <-
    perform E (Call_expert_loss f
                 (LossCall (on_logits net_pi) (expert_actions net_ex)
                           "on_policy" true)) ;;
  let '(guided_loss, guided_summary) := guided in
  a <- perform E Load_aac_lambda ;;
  l <- perform E Load_guided_lambda ;;
  let loss := TF.add (rmul a aac_loss) (rmul l guided_loss) in
  let summaries := summaries ++ guided_summary in
  lg <- perform E Load_log ;;
  a' <- perform E Load_aac_lambda ;;
  l' <- perform E Load_guided_lambda ;;
  perform E (Call_log lg NOTICE (notice_msg a' l') None) ;;
  ret (loss, summaries).

End Methods.

End GuidedAAC.


(** ** A sample of collaborators

    One concrete base trainer, expert loss and formatter, on which the
    statements below are exercised. *)

Module Sample.
Import Py TF GuidedAAC.

(** The format [{:1.6f}]: fixed-point notation with six decimals, the
    exact value being rounded to nearest, ties to even. *)
Definition scaled (m : positive) (e : Z) : Z :=
  if (0 <=? e)%Z then (Z.pos m * 2 ^ e * 10 ^ 6)%Z
  else
    let num := (Z.pos m * 10 ^ 6)%Z in
    let den := (2 ^ (- e))%Z in
    let q := (num / den)%Z in
    let r := (num mod den)%Z in
    if (den <? 2 * r)%Z || ((den =? 2 * r)%Z && Z.odd q)
    then (q + 1)%Z else q.

Definition signed (s : bool) (digits : string) : string :=
  if s then "-" +:+ digits else digits.

Definition tail (s : string) : string :=
  match s with EmptyString => EmptyString | String _ t => t end.

Definition format_f6 (x : float) : string :=
  match Prim2SF x with
  | S754_nan => "nan"
  | S754_infinity s => signed s "inf"
  | S754_zero s => signed s "0.000000"
  | S754_finite s m e =>
      let q := scaled m e in
      signed s (pretty (q / 10 ^ 6)%Z +:+ "." +:+
                tail (pretty (10 ^ 6 + q mod 10 ^ 6)%Z))
  end.

Definition net : network := Network (Node "on_logits") (Node "expert_actions").

Definition aac_loss : tensor := Node "aac_loss".

Definition aac_summaries : list summary :=
  [Summary "policy_loss"; Summary "value_loss"].

Definition guided_loss : tensor := Node "on_policy/guided_loss".

Definition guided_summaries : list summary :=
  [Summary "on_policy/guided_loss"].

Definition the_logger : logger := Logger "GuidedA3C_0".

(** A base loss with two summaries. *)
Definition base_loss (w : world) : result (tensor * list summary) * world :=
  (Ok (aac_loss, aac_summaries), w).

Definition shape_error : exn :=
  Exn "ValueError" "Dimensions must be equal".

(** The imported expert losses build a node under the given name scope and
    report a summary when asked to be verbose; a user's function stands for
    one that fails on the shapes it is given. *)
Definition expert (f : callable) (kw : loss_call) (w : world)
  : result (tensor * list summary) * world :=
  match f, kw with
  | loss_fn _, _ => (Raise shape_error, w)
  | _, LossCall _ _ name verbose =>
      (Ok (Node (name +:+ "/guided_loss"),
           if verbose then [Summary (name +:+ "/guided_loss")] else []),
       w)
  end.

(** A method seen from a collaborator that calls it. *)
Definition method {A : Type} (m : M A) (w : world) : result A * world :=
  let '(_, r, w') := m w in (r, w').

Definition missing_env : exn :=
  Exn "TypeError" "__init__() missing 1 required positional argument: 'env'".

(** A base trainer whose initializer requires the keyword [env], then
    creates the logger and the network, and builds the loss through the
    method [make_loss] of the object. *)
Definition base_init
    (make_loss : world -> result (tensor * list summary) * world)
    (kw : base_call) (w : world) : result unit * world :=
  match kw with
  | BaseCall _ _ name kwargs =>
      match kwargs !! "env" with
      | None => (Raise missing_env, w)
      | Some _ =>
          let w1 :=
            World (expert_loss w) (aac_lambda w) (guided_lambda w)
                  (Some net) (Some (Logger (name +:+ "_0")))
                  (others w) (emitted w) in
          match make_loss w1 with
          | (Ok _, w2) => (Ok tt, w2)
          | (Raise e, w2) => (Raise e, w2)
          end
      end
  end.

(** The collaborators of [_make_loss]. *)
Definition loss_side : collaborators :=
  Collaborators (fun _ w => (Ok tt, w)) base_loss expert format_f6.

(** The collaborators of the constructor: the base initializer calls the
    overridden [_make_loss]. *)
Definition everything : collaborators :=
  Collaborators (base_init (method (_make_loss loss_side)))
                base_loss expert format_f6.

(** Collaborators whose base loss cannot be built. *)
Definition graph_error : exn :=
  Exn "ValueError" "Variable already exists".

Definition base_fails : collaborators :=
  Collaborators (fun _ w => (Ok tt, w)) (fun w => (Raise graph_error, w))
                expert format_f6.

(** A call of the constructor that gives the expert loss, the two weights
    and the keyword [env] that the base trainer requires. *)
Definition weighted_call : init_call :=
  InitCall (Some guided_aac_loss_def_0_1) (Some 0.5%float) (Some 2%float)
           None None None {[ "env" := PyObj 0 ]}.

(** A call of the constructor that gives nothing but the keyword [env]
    that the base trainer requires. *)
Definition default_call : init_call :=
  InitCall None None None None None None {[ "env" := PyObj 0 ]}.

(** An object set up for [_make_loss]. *)
Definition ready (f : callable) (a l : float) : world :=
  World (Some f) (Some a) (Some l) (Some net) (Some the_logger) ∅ [].

(** An object whose logger was never created, and one without network. *)
Definition unlogged (f : callable) (a l : float) : world :=
  World (Some f) (Some a) (Some l) (Some net) None ∅ [].

Definition unwired (f : callable) (a l : float) : world :=
  World (Some f) (Some a) (Some l) None (Some the_logger) ∅ [].

(** A call of the constructor with an expert loss that fails. *)
Definition failing_call : init_call :=
  InitCall (Some (loss_fn 7)) None None None None None
           {[ "env" := PyObj 0 ]}.

(** Values fed to the two upstream losses when the graph is run. *)
Definition feed (base guided : spec_float) (n : string) : spec_float :=
  if String.eqb n "aac_loss" then base else guided.

End Sample.



(** ** Vocabulary of the statements *)

Import Py TF GuidedAAC.

(** The three components of a run. *)
Definition trace {A : Type} (x : list entry * result A * world)
  : list entry := fst (fst x).

Definition outcome {A : Type} (x : list entry * result A * world)
  : result A := snd (fst x).

Definition final {A : Type} (x : list entry * result A * world)
  : world := snd x.

(** The operations of a trace, without their outcomes. *)
Definition ops (tr : list entry) : list op := map what tr.

Definition is_expert_call (c : op) : bool :=
  match c with Call_expert_loss _ _ => true | _ => false end.

Definition is_log_call (c : op) : bool :=
  match c with Call_log _ _ _ _ => true | _ => false end.

Definition is_base_init (c : op) : bool :=
  match c with Call_base_init _ => true | _ => false end.

Definition is_store (c : op) : bool :=
  match c with
  | Store_expert_loss _ | Store_aac_lambda _ | Store_guided_lambda _ => true
  | _ => false
  end.

(** The operations of a trace that satisfy [p], in order. *)
Definition select (p : op -> bool) (tr : list entry) : list op :=
  List.filter p (ops tr).

(** The three attributes of the class are in [w'] what they are in [w]. *)
Definition same_weights (w w' : world) : Prop :=
  expert_loss w' = expert_loss w /\
  aac_lambda w' = aac_lambda w /\
  guided_lambda w' = guided_lambda w.

(** Collaborators that never assign the three attributes of the class. *)
Definition keep_weights (E : collaborators) : Prop :=
  (forall kw w, same_weights w (snd (BaseAAC_init E kw w))) /\
  (forall w, same_weights w (snd (_make_base_loss E w))) /\
  (forall f kw w, same_weights w (snd (call E f kw w))).

(** The call of the expert loss made by [_make_loss] on a network. *)
Definition on_policy_call (f : callable) (net : network) : op :=
  Call_expert_loss f
    (LossCall (on_logits net) (expert_actions net) "on_policy" true).

(** The operations of a call of [_make_loss] that returns. *)
Definition normal_trace (f : callable) (net : network) (lg : logger)
    (msg : string) : list entry :=
  [ Entry Call_make_base_loss None;
    Entry Load_expert_loss None;
    Entry Load_local_network None;
    Entry Load_local_network None;
    Entry (on_policy_call f net) None;
    Entry Load_aac_lambda None;
    Entry Load_guided_lambda None;
    Entry Load_log None;
    Entry Load_aac_lambda None;
    Entry Load_guided_lambda None;
    Entry (Call_log lg NOTICE msg None) None ].

(** The composed loss, as a graph. *)
Definition composed (a : float) (b : tensor) (l : float) (g : tensor)
  : tensor := Add (Mul (Const a) b) (Mul (Const l) g).

(** The state in which the constructor calls the base initializer. *)
Definition assigned (f : callable) (a l : float) (w : world) : world :=
  set_guided_lambda l (set_aac_lambda a (set_expert_loss f w)).

(** The base call made by the constructor for a call [c]. *)
Definition forwarded (c : init_call) : base_call :=
  BaseCall (default VerboseEnvRunnerFn (given_runner_fn_ref c))
           (default ["action_prob"; "value_fn"; "lstm_1_h"; "lstm_2_h"]
                    (given__aux_render_modes c))
           (default "GuidedA3C" (given_name c))
           (given_kwargs c).

(** The value 1.0 in the format of [float32]. *)
Definition one32 : spec_float := S754_finite false 8388608 (-23).

(** The value 3.0 in the format of [float32]. *)
Definition three32 : spec_float := S754_finite false 12582912 (-22).

Definition is_base_loss (c : op) : bool :=
  match c with Call_make_base_loss => true | _ => false end.

Ltac run_method :=
  cbv beta iota zeta
      delta [_make_loss __init__ init_body bind try_except perform ret raise
             handle getattr outcome_exn ans on_policy_call].

Ltac step := cbv beta iota zeta delta [ans].

(** Case analysis on the outcome of the next operation. *)
Ltac case_on_scrutinee :=
  match goal with
  | |- context [match ?x with _ => _ end] =>
      lazymatch x with
      | context [match _ with _ => _ end] => fail
      | _ =>
          first [ is_var x; destruct x
                | match goal with H : x = _ |- _ => rewrite H end
                | destruct x eqn:? ]
      end
  end.

Ltac run_all := run_method; repeat (step; case_on_scrutinee); step.

Ltac project :=
  unfold select, ops, trace, outcome, final; cbn [fst snd app map].

Ltac split_membership :=
  repeat match goal with
         | H : In _ _ |- _ => cbn in H
         | H : _ \/ _ |- _ => destruct H
         | H : False |- _ => destruct H
         | H : Entry _ _ = Entry _ _ |- _ => inversion H; subst; clear H
         end.

(** What is known of a state left by a collaborator that keeps the
    weights. *)
Ltac use_frames Hb Hc :=
  repeat match goal with
         | H : _make_base_loss ?E ?x = (_, _) |- _ =>
             let K := fresh "K" in
             pose proof (Hb x) as K; rewrite H in K; cbn [snd] in K; clear H
         | H : call ?E ?f ?kw ?x = (_, _) |- _ =>
             let K := fresh "K" in
             pose proof (Hc f kw x) as K; rewrite H in K; cbn [snd] in K;
             clear H
         end.

(** ** Floating-point facts *)

Section Rounding.

Local Open Scope Z_scope.

Lemma digits2_pos_shift (k : nat) (m : positive) :
  Z.pos (digits2_pos (Nat.iter k xO m)) = Z.pos (digits2_pos m) + Z.of_nat k.
Proof.
  induction k as [|k IH].
  - cbn [Nat.iter nat_rect]. lia.
  - rewrite Nat.iter_succ. cbn [digits2_pos].
    rewrite Pos2Z.inj_succ, IH. lia.
Qed.

Lemma iter_pos_nat {A : Type} (h : A -> A) (p : positive) (x : A) :
  SpecFloat.iter_pos h p x = Nat.iter (Pos.to_nat p) h x.
Proof.
  revert x. induction p as [p IH|p IH|]; intros x; cbn [SpecFloat.iter_pos].
  - rewrite !IH, Pos2Nat.inj_xI, Nat.iter_succ_r.
    replace (2 * Pos.to_nat p)%nat
      with (Pos.to_nat p + Pos.to_nat p)%nat by lia.
    now rewrite Nat.iter_add.
  - rewrite !IH, Pos2Nat.inj_xO.
    replace (2 * Pos.to_nat p)%nat
      with (Pos.to_nat p + Pos.to_nat p)%nat by lia.
    now rewrite Nat.iter_add.
  - reflexivity.
Qed.

(** Shifting out the [k] zero bits that were shifted in loses nothing. *)
Lemma shr_exact_shift (k : nat) (m : positive) :
  Nat.iter k shr_1 (Build_shr_record (Z.pos (Nat.iter k xO m)) false false)
  = Build_shr_record (Z.pos m) false false.
Proof.
  induction k as [|k IH]; [reflexivity|].
  rewrite Nat.iter_succ_r, (Nat.iter_succ k). cbn [shr_1 orb]. apply IH.
Qed.

Lemma mul_shift (k : nat) (m : positive) :
  Pos.mul (Nat.iter k xO 1%positive) m = Nat.iter k xO m.
Proof.
  induction k as [|k IH]; [reflexivity|].
  rewrite !Nat.iter_succ.
  change ((Nat.iter k xO 1)~0 * m)%positive
    with ((Nat.iter k xO 1 * m)~0)%positive.
  now rewrite IH.
Qed.

(** Rounding [m * 2^k * 2^(e-k)] gives back the canonical [m * 2^e]. *)
Lemma round_shifted (p emx : Z) (s : bool) (m : positive) (e : Z) (k : nat) :
  bounded p emx m e = true ->
  binary_round_aux p emx s (Z.pos (Nat.iter k xO m)) (e - Z.of_nat k)
                   loc_Exact
  = S754_finite s m e.
Proof.
  unfold bounded, canonical_mantissa. intros H.
  apply andb_prop in H as [Hc Hb].
  apply Z.eqb_eq in Hc.
  unfold binary_round_aux, shr_fexp. cbn [Zdigits2 shr_record_of_loc].
  rewrite digits2_pos_shift.
  replace (Z.pos (digits2_pos m) + Z.of_nat k + (e - Z.of_nat k))
    with (Z.pos (digits2_pos m) + e) by (clear; lia).
  rewrite Hc.
  replace (e - (e - Z.of_nat k)) with (Z.of_nat k) by (clear; lia).
  assert (Hs : shr (Build_shr_record (Z.pos (Nat.iter k xO m)) false false)
                   (e - Z.of_nat k) (Z.of_nat k)
               = (Build_shr_record (Z.pos m) false false, e)).
  { destruct k as [|k].
    - rewrite Nat2Z.inj_0, Z.sub_0_r. reflexivity.
    - change (Z.of_nat (S k)) with (Z.pos (Pos.of_succ_nat k)).
      unfold shr.
      rewrite iter_pos_nat, SuccNat2Pos.id_succ, shr_exact_shift.
      f_equal. clear. lia. }
  rewrite Hs.
  cbn [shr_m loc_of_shr_record round_nearest_even Zdigits2
       shr_record_of_loc].
  rewrite Hc, Z.sub_diag. cbn [shr shr_m]. now rewrite Hb.
Qed.

(** One, written with [k] trailing zero bits, is neutral on valid floats. *)
Lemma SFmul_one_l (p emx : Z) (k : nat) (x : spec_float) :
  SpecFloat.valid_binary p emx x = true ->
  SFmul p emx (S754_finite false (Nat.iter k xO 1%positive) (- Z.of_nat k)) x
  = x.
Proof.
  destruct x as [s|s| |s m e]; cbn [SFmul SpecFloat.valid_binary xorb];
    trivial.
  intros H. rewrite mul_shift.
  replace (- Z.of_nat k + e) with (e - Z.of_nat k) by lia.
  now apply round_shifted.
Qed.

End Rounding.

(** The constant 1.0 in each format. *)
Lemma cast_one (d : dtype) :
  cast d (Prim2SF 1%float)
  = S754_finite false
      (Nat.iter (Z.to_nat (dtype_prec d - 1)) xO 1%positive)
      (- Z.of_nat (Z.to_nat (dtype_prec d - 1))).
Proof. destruct d; vm_compute; reflexivity. Qed.

Lemma fmul_one_l (d : dtype) (x : spec_float) :
  valid d x = true -> fmul d (cast d (Prim2SF 1%float)) x = x.
Proof.
  intros H. rewrite cast_one. unfold fmul. now apply SFmul_one_l.
Qed.

(** A regular value is a value of the format. *)
Lemma regular_valid (d : dtype) (x : spec_float) :
  regular d x = true -> valid d x = true.
Proof.
  destruct x as [s|s| |s m e]; cbn; trivial.
  intros H. now apply andb_prop in H as [H _].
Qed.

(** A run without subnormal value gives a regular value. *)
Lemma no_subnormal_regular (d : dtype) (feed : string -> spec_float)
    (t : tensor) :
  no_subnormal d feed t = true -> regular d (eval d feed t) = true.
Proof.
  destruct t as [n|c|x y|x y]; cbn [no_subnormal eval]; trivial.
  all: intros H; now apply andb_prop in H as [_ H].
Qed.

(** In a run of [a * b + l * g] without subnormal value, the values of
    [b] and [g] are values of the format. *)
Lemma no_subnormal_operands (d : dtype) (feed : string -> spec_float)
    (a l : float) (b g : tensor) :
  no_subnormal d feed (Add (Mul (Const a) b) (Mul (Const l) g)) = true ->
  valid d (eval d feed b) = true /\ valid d (eval d feed g) = true.
Proof.
  cbn [no_subnormal]. rewrite !andb_true_iff.
  intros [[[[_ Hb] _] [[_ Hg] _]] _].
  split; now apply regular_valid, no_subnormal_regular.
Qed.

(** A zero constant stays a zero in every format. *)
Lemma cast_zero (d : dtype) (c : float) :
  is_zero c = true -> exists s, cast d (Prim2SF c) = S754_zero s.
Proof.
  unfold is_zero. destruct (Prim2SF c) as [s| | |]; try discriminate.
  intros _. now exists s.
Qed.

(** Zero times a finite value is a zero. *)
Lemma fmul_zero_finite (d : dtype) (s : bool) (x : spec_float) :
  finite x = true -> exists s', fmul d (S754_zero s) x = S754_zero s'.
Proof.
  destruct x as [sx|sx| |sx m e]; try discriminate; intros _;
    cbn; eauto.
Qed.

(** Adding a zero changes at most the sign of a zero. *)
Lemma fadd_zero_l (d : dtype) (s : bool) (y : spec_float) :
  same_number (fadd d (S754_zero s) y) y.
Proof.
  destruct y as [sy|sy| |sy m e]; cbn; trivial.
  destruct s, sy; exact I.
Qed.

Lemma fadd_zero_r (d : dtype) (s : bool) (x : spec_float) :
  same_number (fadd d x (S754_zero s)) x.
Proof.
  destruct x as [sx|sx| |sx m e]; cbn; trivial.
  destruct sx, s; exact I.
Qed.

(** ** [_make_loss] when both upstream losses are built *)

Section NormalRun.

(** A call of [_make_loss] in which the two upstream losses are built and
    the attributes read are there. *)
Variable E : collaborators.
Variables w w1 w2 : world.
Variables (b g : tensor) (s t : list summary).
Variables (f : callable) (net : network) (a l : float) (lg : logger).

Hypothesis base_built : _make_base_loss E w = (Ok (b, s), w1).
Hypothesis expert_set : expert_loss w1 = Some f.
Hypothesis network_set : local_network w1 = Some net.
Hypothesis expert_built :
  call E f (LossCall (on_logits net) (expert_actions net) "on_policy" true) w1
  = (Ok (g, t), w2).
Hypothesis aac_set : aac_lambda w2 = Some a.
Hypothesis guided_set : guided_lambda w2 = Some l.
Hypothesis log_set : log w2 = Some lg.

Lemma make_loss_run :
  _make_loss E w =
  (normal_trace f net lg (notice_msg E a l),
   Ok (composed a b l g, s ++ t),
   emit (LogRecord (channel lg) NOTICE (notice_msg E a l) None) w2).
Proof.
  run_method.
  repeat (step;
          first [ rewrite base_built | rewrite expert_set
                | rewrite network_set | rewrite expert_built
                | rewrite aac_set | rewrite guided_set
                | rewrite log_set ]).
  reflexivity.
Qed.

(** C1: when the base loss [b] and the expert loss [g] are built and the
    weights read are [a] and [l], [_make_loss] returns the graph
    [a * b + l * g], whose value in every tensor type and under every
    feed is the weighted sum [a * b + l * g] of the two upstream values,
    computed in the arithmetic of that type. *)
Theorem make_loss_weighted_sum :
  exists sums,
    outcome (_make_loss E w) = Ok (Add (Mul (Const a) b) (Mul (Const l) g), sums)
    /\ forall d feed,
         eval d feed (Add (Mul (Const a) b) (Mul (Const l) g))
         = fadd d (fmul d (cast d (Prim2SF a)) (eval d feed b))
                  (fmul d (cast d (Prim2SF l)) (eval d feed g)).
Proof.
  exists (s ++ t). split.
  - now rewrite make_loss_run.
  - reflexivity.
Qed.

(** C2: the summaries returned are the base summaries [s] followed by the
    expert summaries [t]: every element keeps its place in its list and
    the lengths add up. *)
Theorem make_loss_summaries_concatenated :
  exists loss,
    outcome (_make_loss E w) = Ok (loss, s ++ t)
    /\ length (s ++ t) = length s + length t
    /\ (forall i x, s !! i = Some x -> (s ++ t) !! i = Some x)
    /\ (forall j, (s ++ t) !! (length s + j) = t !! j).
Proof.
  exists (composed a b l g). repeat split.
  - now rewrite make_loss_run.
  - apply length_app.
  - intros i x Hi. now apply lookup_app_l_Some.
  - intros j. now rewrite lookup_app_r, Nat.add_comm, Nat.add_sub by lia.
Qed.

(** C3, amended: a zero weight removes its loss from the value of the
    composed loss when that loss is finite.  The value is then the other
    weighted loss, up to the sign of a zero. *)
Theorem zero_weight_finite_loss :
  exists sums,
    outcome (_make_loss E w) = Ok (composed a b l g, sums)
    /\ forall d feed,
         (is_zero a = true -> finite (eval d feed b) = true ->
          same_number (eval d feed (composed a b l g))
                      (eval d feed (rmul l g)))
         /\ (is_zero l = true -> finite (eval d feed g) = true ->
             same_number (eval d feed (composed a b l g))
                         (eval d feed (rmul a b))).
Proof.
  exists (s ++ t). split; [now rewrite make_loss_run|].
  intros d feed. cbn [composed rmul eval]. split; intros Hz Hf.
  - destruct (cast_zero d a Hz) as [sa ->].
    destruct (fmul_zero_finite d sa _ Hf) as [s' ->].
    apply fadd_zero_l.
  - destruct (cast_zero d l Hz) as [sl ->].
    destruct (fmul_zero_finite d sl _ Hf) as [s' ->].
    apply fadd_zero_r.
Qed.

End NormalRun.

Lemma make_loss_weighted_sum_witness :
  exists sums,
    outcome (_make_loss Sample.loss_side
               (Sample.ready guided_aac_loss_def_0_3 0.5 2))
    = Ok (Add (Mul (Const 0.5) Sample.aac_loss)
              (Mul (Const 2) Sample.guided_loss), sums)
    /\ forall d feed,
         eval d feed (Add (Mul (Const 0.5) Sample.aac_loss)
                          (Mul (Const 2) Sample.guided_loss))
         = fadd d (fmul d (cast d (Prim2SF 0.5)) (eval d feed Sample.aac_loss))
                  (fmul d (cast d (Prim2SF 2))
                          (eval d feed Sample.guided_loss)).
Proof.
  apply (make_loss_weighted_sum Sample.loss_side
           (Sample.ready guided_aac_loss_def_0_3 0.5 2)
           (Sample.ready guided_aac_loss_def_0_3 0.5 2)
           (Sample.ready guided_aac_loss_def_0_3 0.5 2)
           Sample.aac_loss Sample.guided_loss
           Sample.aac_summaries Sample.guided_summaries
           guided_aac_loss_def_0_3 Sample.net 0.5 2 Sample.the_logger);
    reflexivity.
Defined.

Lemma make_loss_summaries_concatenated_witness :
  exists loss,
    outcome (_make_loss Sample.loss_side
               (Sample.ready guided_aac_loss_def_0_3 0.5 2))
    = Ok (loss, Sample.aac_summaries ++ Sample.guided_summaries)
    /\ length (Sample.aac_summaries ++ Sample.guided_summaries)
       = length Sample.aac_summaries + length Sample.guided_summaries
    /\ (forall i x,
          Sample.aac_summaries !! i = Some x ->
          (Sample.aac_summaries ++ Sample.guided_summaries) !! i = Some x)
    /\ (forall j,
          (Sample.aac_summaries ++ Sample.guided_summaries)
            !! (length Sample.aac_summaries + j)
          = Sample.guided_summaries !! j).
Proof.
  apply (make_loss_summaries_concatenated Sample.loss_side
           (Sample.ready guided_aac_loss_def_0_3 0.5 2)
           (Sample.ready guided_aac_loss_def_0_3 0.5 2)
           (Sample.ready guided_aac_loss_def_0_3 0.5 2)
           Sample.aac_loss Sample.guided_loss
           Sample.aac_summaries Sample.guided_summaries
           guided_aac_loss_def_0_3 Sample.net 0.5 2 Sample.the_logger);
    reflexivity.
Defined.

(** With [aac_lambda = 0] and a base loss of 3.0 the value is that of
    [2 * guided]; with [guided_lambda = 0] and an expert loss of 1.0 it is
    that of [2 * base]. *)
Lemma zero_weight_finite_loss_witness :
  same_number
    (eval float32 (Sample.feed three32 one32)
          (composed 0 Sample.aac_loss 2 Sample.guided_loss))
    (eval float32 (Sample.feed three32 one32) (rmul 2 Sample.guided_loss))
  /\ same_number
       (eval float32 (Sample.feed three32 one32)
             (composed 2 Sample.aac_loss 0 Sample.guided_loss))
       (eval float32 (Sample.feed three32 one32) (rmul 2 Sample.aac_loss)).
Proof.
  split.
  - destruct (zero_weight_finite_loss Sample.loss_side
                (Sample.ready guided_aac_loss_def_0_3 0 2)
                (Sample.ready guided_aac_loss_def_0_3 0 2)
                (Sample.ready guided_aac_loss_def_0_3 0 2)
                Sample.aac_loss Sample.guided_loss
                Sample.aac_summaries Sample.guided_summaries
                guided_aac_loss_def_0_3 Sample.net 0 2 Sample.the_logger
                eq_refl eq_refl eq_refl eq_refl eq_refl eq_refl eq_refl)
      as (sums & _ & H).
    apply (H float32 (Sample.feed three32 one32)); reflexivity.
  - destruct (zero_weight_finite_loss Sample.loss_side
                (Sample.ready guided_aac_loss_def_0_3 2 0)
                (Sample.ready guided_aac_loss_def_0_3 2 0)
                (Sample.ready guided_aac_loss_def_0_3 2 0)
                Sample.aac_loss Sample.guided_loss
                Sample.aac_summaries Sample.guided_summaries
                guided_aac_loss_def_0_3 Sample.net 2 0 Sample.the_logger
                eq_refl eq_refl eq_refl eq_refl eq_refl eq_refl eq_refl)
      as (sums & _ & H).
    apply (H float32 (Sample.feed three32 one32)); reflexivity.
Defined.

(** C3 as stated fails: with [aac_lambda = 0] and a base loss whose value
    is infinite, the composed loss is a NaN, not [guided_lambda * g]
    (here 1.0 * 1.0). *)
Lemma zero_weight_infinite_loss :
  outcome (_make_loss Sample.loss_side
             (Sample.ready guided_aac_loss_def_0_3 0 1))
  = Ok (composed 0 Sample.aac_loss 1 Sample.guided_loss,
        Sample.aac_summaries ++ Sample.guided_summaries)
  /\ is_zero 0 = true
  /\ eval float32 (Sample.feed (S754_infinity false) one32)
          (composed 0 Sample.aac_loss 1 Sample.guided_loss)
     = S754_nan
  /\ eval float32 (Sample.feed (S754_infinity false) one32)
          (rmul 1 Sample.guided_loss)
     = one32
  /\ ~ same_number
         (eval float32 (Sample.feed (S754_infinity false) one32)
               (composed 0 Sample.aac_loss 1 Sample.guided_loss))
         (eval float32 (Sample.feed (S754_infinity false) one32)
               (rmul 1 Sample.guided_loss)).
Proof.
  split; [reflexivity|]. split; [reflexivity|].
  split; [vm_compute; reflexivity|]. split; [vm_compute; reflexivity|].
  vm_compute. discriminate.
Qed.

(** ** The call of the expert loss *)

Section ExpertCall.

(** A call of [_make_loss] that gets as far as calling the expert loss. *)
Variable E : collaborators.
Variables w w1 : world.
Variables (b : tensor) (s : list summary) (f : callable) (net : network).

Hypothesis base_built : _make_base_loss E w = (Ok (b, s), w1).
Hypothesis expert_set : expert_loss w1 = Some f.
Hypothesis network_set : local_network w1 = Some net.

(** C4, amended: a call of [_make_loss] in which the base loss is built
    and the attributes [expert_loss] and [local_network] are set calls the
    callable held by [expert_loss] exactly once, with [on_logits] of the
    network as [pi_actions], its [expert_actions] as [expert_actions],
    ['on_policy'] as [name] and [verbose=True]; when [_make_loss] returns,
    the pair that this call returned is the expert part of the result. *)
Theorem make_loss_calls_expert_once :
  select is_expert_call (trace (_make_loss E w))
  = [Call_expert_loss f
       (LossCall (on_logits net) (expert_actions net) "on_policy" true)]
  /\ forall loss sums,
       outcome (_make_loss E w) = Ok (loss, sums) ->
       exists g t w2 a l,
         call E f
              (LossCall (on_logits net) (expert_actions net) "on_policy" true)
              w1
         = (Ok (g, t), w2)
         /\ loss = Add (Mul (Const a) b) (Mul (Const l) g)
         /\ sums = s ++ t.
Proof.
  run_method. step. rewrite base_built. step. rewrite expert_set. step.
  rewrite network_set. step. rewrite network_set.
  repeat (step; case_on_scrutinee); step.
  all: project; split; [reflexivity|].
  all: intros loss sums H; try discriminate H.
  inversion H; subst. eauto 10.
Qed.

End ExpertCall.

Lemma make_loss_calls_expert_once_witness :
  select is_expert_call
    (trace (_make_loss Sample.loss_side
              (Sample.ready guided_aac_loss_def_0_3 0.5 2)))
  = [Call_expert_loss guided_aac_loss_def_0_3
       (LossCall (Node "on_logits") (Node "expert_actions") "on_policy" true)]
  /\ forall loss sums,
       outcome (_make_loss Sample.loss_side
                  (Sample.ready guided_aac_loss_def_0_3 0.5 2))
       = Ok (loss, sums) ->
       exists g t w2 a l,
         call Sample.loss_side guided_aac_loss_def_0_3
              (LossCall (Node "on_logits") (Node "expert_actions")
                        "on_policy" true)
              (Sample.ready guided_aac_loss_def_0_3 0.5 2)
         = (Ok (g, t), w2)
         /\ loss = Add (Mul (Const a) Sample.aac_loss) (Mul (Const l) g)
         /\ sums = Sample.aac_summaries ++ t.
Proof.
  apply (make_loss_calls_expert_once Sample.loss_side
           (Sample.ready guided_aac_loss_def_0_3 0.5 2)
           (Sample.ready guided_aac_loss_def_0_3 0.5 2)
           Sample.aac_loss Sample.aac_summaries
           guided_aac_loss_def_0_3 Sample.net);
    reflexivity.
Defined.

(** C4 as stated fails: a call of [_make_loss] in which the base loss
    cannot be built never calls the expert loss. *)
Lemma make_loss_without_expert_call :
  outcome (_make_loss Sample.base_fails
             (Sample.ready guided_aac_loss_def_0_3 1 1))
  = Raise Sample.graph_error
  /\ select is_expert_call
       (trace (_make_loss Sample.base_fails
                 (Sample.ready guided_aac_loss_def_0_3 1 1)))
     = []
  /\ length (select is_expert_call
               (trace (_make_loss Sample.base_fails
                         (Sample.ready guided_aac_loss_def_0_3 1 1))))
     <> 1.
Proof.
  split; [reflexivity|]. split; [reflexivity|].
  vm_compute. discriminate.
Qed.

(** ** Exceptions and logging in [_make_loss] *)

(** C6: an exception raised by any operation of [_make_loss], the
    building of the base loss and the call of the expert loss among them,
    is the outcome of [_make_loss], with its class and its argument, and
    the operation that raised it is the last one performed: nothing is
    caught, logged or retried. *)
Theorem make_loss_propagates (E : collaborators) (w : world) (c : op)
    (e : exn) :
  In (Entry c (Some e)) (trace (_make_loss E w)) ->
  outcome (_make_loss E w) = Raise e
  /\ last (trace (_make_loss E w)) = Some (Entry c (Some e)).
Proof.
  run_all.
  all: project; intros Hin.
  all: split_membership.
  all: split; reflexivity.
Qed.

(** The expert loss of a user fails on the shapes, and the base loss
    cannot be built. *)
Lemma make_loss_propagates_witness :
  (outcome (_make_loss Sample.loss_side (Sample.ready (loss_fn 7) 1 1))
   = Raise Sample.shape_error
   /\ last (trace (_make_loss Sample.loss_side
                     (Sample.ready (loss_fn 7) 1 1)))
      = Some (Entry (on_policy_call (loss_fn 7) Sample.net)
                    (Some Sample.shape_error)))
  /\ (outcome (_make_loss Sample.base_fails (Sample.ready (loss_fn 7) 1 1))
      = Raise Sample.graph_error
      /\ last (trace (_make_loss Sample.base_fails
                        (Sample.ready (loss_fn 7) 1 1)))
         = Some (Entry Call_make_base_loss (Some Sample.graph_error))).
Proof.
  split.
  - apply (make_loss_propagates Sample.loss_side
             (Sample.ready (loss_fn 7) 1 1)
             (on_policy_call (loss_fn 7) Sample.net) Sample.shape_error).
    vm_compute. do 4 right. left. reflexivity.
  - apply (make_loss_propagates Sample.base_fails
             (Sample.ready (loss_fn 7) 1 1)
             Call_make_base_loss Sample.graph_error).
    vm_compute. left. reflexivity.
Defined.



(** The message logged for the weights 0.5 and 2. *)
Example notice_msg_sample :
  notice_msg Sample.loss_side 0.5 2
  = "aac_lambda: 0.500000, guided_lambda: 2.000000".
Proof. vm_compute. reflexivity. Qed.

(** ** The constructor *)

(** When the base initializer raises and the logger is already there, the
    constructor logs the failure at level error with the exception caught,
    then raises a [RuntimeError] with the fixed message. *)
Lemma init_wraps_exception (E : collaborators) (c : init_call) (w w1 : world)
    (f : callable) (a l : float) (kw : base_call) (e : exn) (lg : logger) :
  bind_params c
  = match kw with
    | BaseCall r m n k => InitParams f a l r m n k
    end ->
  BaseAAC_init E kw (assigned f a l w) = (Raise e, w1) ->
  log w1 = Some lg ->
  __init__ E c w
  = ([ Entry (Store_expert_loss f) None;
       Entry (Store_aac_lambda a) None;
       Entry (Store_guided_lambda l) None;
       Entry (Call_base_init kw) (Some e);
       Entry Load_log None;
       Entry (Call_log lg ERROR init_msg (Some e)) None ],
     Raise (RuntimeError init_msg),
     emit (LogRecord (channel lg) ERROR init_msg (Some e)) w1).
Proof.
  destruct kw as [r m n k]. intros Hp Hb Hl.
  unfold __init__. rewrite Hp. run_method. step.
  unfold assigned in Hb. rewrite Hb. step. rewrite Hl. reflexivity.
Qed.

(** An expert loss that fails while the base initializer builds the loss:
    the failure is logged, then replaced by the [RuntimeError]. *)
Example init_wraps_expert_failure :
  let c := InitCall (Some (loss_fn 7)) None None None None None
                    {[ "env" := PyObj 0 ]} in
  outcome (__init__ Sample.everything c fresh) = Raise (RuntimeError init_msg)
  /\ emitted (final (__init__ Sample.everything c fresh))
     = [LogRecord "GuidedA3C_0" ERROR init_msg (Some Sample.shape_error)].
Proof. split; vm_compute; reflexivity. Qed.

(** C5 fails on the code when the logger does not exist yet: the base
    initializer of the sample raises a [TypeError] before it assigns
    [self.log]; the handler then fails on [self.log], so that nothing is
    logged and the caller gets an [AttributeError], not the
    [RuntimeError]. *)
Theorem init_handler_needs_logger :
  __init__ Sample.everything no_arguments fresh
  = ([ Entry (Store_expert_loss guided_aac_loss_def_0_3) None;
       Entry (Store_aac_lambda 1) None;
       Entry (Store_guided_lambda 1) None;
       Entry (Call_base_init (forwarded no_arguments))
             (Some Sample.missing_env);
       Entry Load_log (Some (AttributeError "log")) ],
     Raise (AttributeError "log"),
     assigned guided_aac_loss_def_0_3 1 1 fresh)
  /\ emitted (final (__init__ Sample.everything no_arguments fresh)) = []
  /\ AttributeError "log" <> RuntimeError init_msg.
Proof.
  split; [vm_compute; reflexivity|].
  split; [vm_compute; reflexivity|].
  unfold AttributeError, RuntimeError. intros H. discriminate H.
Qed.

(** C8: whatever the arguments and whatever the base initializer does,
    the constructor assigns the expert loss and the two weights to the
    object and changes nothing else, then calls the base initializer
    exactly once, on that object, with the runner reference, the render
    modes, the name and the remaining keywords it was given (or the
    defaults of the first three); the three values it keeps are not
    passed on.  When the base initializer returns, the constructor
    returns and leaves the object as the base initializer left it; when
    the base initializer raises, the constructor raises. *)
Theorem init_forwards_to_base (E : collaborators) (c : init_call)
    (w : world) :
  let f := default guided_aac_loss_def_0_3 (given_expert_loss c) in
  let a := default 1%float (given_aac_lambda c) in
  let l := default 1%float (given_guided_lambda c) in
  let kw :=
    BaseCall (default VerboseEnvRunnerFn (given_runner_fn_ref c))
             (default ["action_prob"; "value_fn"; "lstm_1_h"; "lstm_2_h"]
                      (given__aux_render_modes c))
             (default "GuidedA3C" (given_name c))
             (given_kwargs c) in
  let w0 := set_guided_lambda l (set_aac_lambda a (set_expert_loss f w)) in
  (expert_loss w0 = Some f /\ aac_lambda w0 = Some a
   /\ guided_lambda w0 = Some l
   /\ local_network w0 = local_network w /\ log w0 = log w
   /\ others w0 = others w /\ emitted w0 = emitted w)
  /\ select is_base_init (trace (__init__ E c w)) = [Call_base_init kw]
  /\ select is_store (trace (__init__ E c w))
     = [Store_expert_loss f; Store_aac_lambda a; Store_guided_lambda l]
  /\ match BaseAAC_init E kw w0 with
     | (Ok _, w1) =>
         outcome (__init__ E c w) = Ok tt
         /\ final (__init__ E c w) = w1
     | (Raise e, w1) =>
         In (Entry (Call_base_init kw) (Some e)) (trace (__init__ E c w))
         /\ (outcome (__init__ E c w) = Raise (RuntimeError init_msg)
             \/ outcome (__init__ E c w) = Raise (AttributeError "log"))
         /\ same_weights w1 (final (__init__ E c w))
     end.
Proof.
  intros f a l kw w0.
  split; [repeat split|].
  subst f a l kw w0. unfold __init__, bind_params. run_all.
  all: project.
  all: repeat match goal with u : unit |- _ => destruct u end.
  all: repeat (split; [reflexivity|]).
  - split; reflexivity.
  - split; [cbn; tauto|]. split; [left; reflexivity|]. repeat split.
  - split; [cbn; tauto|]. split; [right; reflexivity|]. repeat split.
Qed.

(** All arguments given: each one goes where it belongs, unchanged. *)
Example init_forwards_given :
  let kw : gmap string value := {[ "env" := PyObj 0; "task" := PyInt 3 ]} in
  let c := InitCall (Some guided_aac_loss_def_0_1) (Some 0.5%float)
                    (Some 2%float) (Some (runner_fn 4)) (Some ["value_fn"])
                    (Some "Guided") kw in
  select is_base_init (trace (__init__ Sample.everything c fresh))
  = [Call_base_init (BaseCall (runner_fn 4) ["value_fn"] "Guided" kw)]
  /\ select is_store (trace (__init__ Sample.everything c fresh))
     = [Store_expert_loss guided_aac_loss_def_0_1;
        Store_aac_lambda 0.5; Store_guided_lambda 2].
Proof. split; vm_compute; reflexivity. Qed.

(** C9: a call of the constructor that gives no expert loss, no weight
    and no name assigns [guided_aac_loss_def_0_3] and the weights 1.0 and
    1.0 to the object, then runs the base initializer on that object with
    the name ['GuidedA3C'], and returns with the object as the base
    initializer left it.  A call of [_make_loss] that reads the weights
    as the constructor stored them returns the graph [1.0 * b + 1.0 * g],
    whose value is the sum of the values of the base loss and of the
    expert loss whenever no subnormal value occurs in the run. *)
Theorem init_defaults (E : collaborators) (c : init_call) (w : world)
    (wl w1 w2 : world) (b g : tensor) (s t : list summary)
    (f : callable) (net : network) (lg : logger) :
  given_expert_loss c = None ->
  given_aac_lambda c = None ->
  given_guided_lambda c = None ->
  given_name c = None ->
  _make_base_loss E wl = (Ok (b, s), w1) ->
  expert_loss w1 = Some f ->
  local_network w1 = Some net ->
  call E f (LossCall (on_logits net) (expert_actions net) "on_policy" true) w1
  = (Ok (g, t), w2) ->
  aac_lambda w2 = aac_lambda (assigned guided_aac_loss_def_0_3 1 1 w) ->
  guided_lambda w2 = guided_lambda (assigned guided_aac_loss_def_0_3 1 1 w) ->
  log w2 = Some lg ->
  (expert_loss (assigned guided_aac_loss_def_0_3 1 1 w)
   = Some guided_aac_loss_def_0_3
   /\ aac_lambda (assigned guided_aac_loss_def_0_3 1 1 w) = Some 1%float
   /\ guided_lambda (assigned guided_aac_loss_def_0_3 1 1 w) = Some 1%float)
  /\ select is_store (trace (__init__ E c w))
     = [Store_expert_loss guided_aac_loss_def_0_3;
        Store_aac_lambda 1; Store_guided_lambda 1]
  /\ match
       BaseAAC_init E
         (BaseCall (default VerboseEnvRunnerFn (given_runner_fn_ref c))
                   (default
                      ["action_prob"; "value_fn"; "lstm_1_h"; "lstm_2_h"]
                      (given__aux_render_modes c))
                   "GuidedA3C" (given_kwargs c))
         (assigned guided_aac_loss_def_0_3 1 1 w)
     with
     | (Ok _, w') =>
         outcome (__init__ E c w) = Ok tt /\ final (__init__ E c w) = w'
     | (Raise e, _) => outcome (__init__ E c w) <> Ok tt
     end
  /\ outcome (_make_loss E wl)
     = Ok (Add (Mul (Const 1) b) (Mul (Const 1) g), s ++ t)
  /\ forall d feed,
       no_subnormal d feed (Add (Mul (Const 1) b) (Mul (Const 1) g)) = true ->
       eval d feed (Add (Mul (Const 1) b) (Mul (Const 1) g))
       = fadd d (eval d feed b) (eval d feed g).
Proof.
  intros Hf Ha Hl Hn Hbase Hexp Hnet Hcall Haac Hgui Hlog.
  split; [repeat split|].
  split; [|split; [|split]].
  - unfold __init__, bind_params. rewrite Hf, Ha, Hl. run_all.
    all: project; reflexivity.
  - unfold __init__, bind_params, assigned.
    rewrite Hf, Ha, Hl, Hn. cbn [default from_option id]. run_all.
    all: project.
    all: repeat match goal with u : unit |- _ => destruct u end.
    all: first [ split; reflexivity | discriminate ].
  - cbn in Haac, Hgui.
    now rewrite (make_loss_run E wl w1 w2 b g s t f net 1 1 lg).
  - intros d feed H.
    destruct (no_subnormal_operands d feed 1 1 b g H) as [Hb Hg].
    cbn [eval]. now rewrite !fmul_one_l.
Qed.

(** The object built by a call that gives only [env]: the construction
    succeeds, the object holds the defaults, and with base and expert
    values 3.0 and 1.0 the loss it then builds has the value 3.0 + 1.0. *)
Lemma init_defaults_witness :
  outcome (__init__ Sample.everything Sample.default_call fresh) = Ok tt
  /\ (expert_loss
        (final (__init__ Sample.everything Sample.default_call fresh))
      = Some guided_aac_loss_def_0_3
      /\ aac_lambda
           (final (__init__ Sample.everything Sample.default_call fresh))
         = Some 1%float
      /\ guided_lambda
           (final (__init__ Sample.everything Sample.default_call fresh))
         = Some 1%float)
  /\ outcome (_make_loss Sample.everything
                (final (__init__ Sample.everything Sample.default_call fresh)))
     = Ok (Add (Mul (Const 1) Sample.aac_loss)
               (Mul (Const 1) Sample.guided_loss),
           Sample.aac_summaries ++ Sample.guided_summaries)
  /\ eval float32 (Sample.feed three32 one32)
          (Add (Mul (Const 1) Sample.aac_loss)
               (Mul (Const 1) Sample.guided_loss))
     = fadd float32 three32 one32.
Proof.
  pose proof
    (init_defaults Sample.everything Sample.default_call fresh
       (final (__init__ Sample.everything Sample.default_call fresh))
       (final (__init__ Sample.everything Sample.default_call fresh))
       (final (__init__ Sample.everything Sample.default_call fresh))
       Sample.aac_loss Sample.guided_loss
       Sample.aac_summaries Sample.guided_summaries
       guided_aac_loss_def_0_3 Sample.net Sample.the_logger
       eq_refl eq_refl eq_refl eq_refl eq_refl eq_refl eq_refl eq_refl
       eq_refl eq_refl eq_refl)
    as (_ & _ & Hinit & Hloss & Hval).
  hnf in Hinit. destruct Hinit as [Hok Hfin].
  split; [exact Hok|]. split; [|split].
  - rewrite Hfin. repeat split.
  - exact Hloss.
  - apply (Hval float32 (Sample.feed three32 one32)). reflexivity.
Defined.

(** The defaults of the signature, and the sum 3.0 + 1.0 that the default
    weights give. *)
Example bind_params_no_arguments :
  bind_params no_arguments
  = InitParams guided_aac_loss_def_0_3 1 1 VerboseEnvRunnerFn
               ["action_prob"; "value_fn"; "lstm_1_h"; "lstm_2_h"]
               "GuidedA3C" ∅
  /\ eval float32 (Sample.feed three32 one32)
          (composed 1 Sample.aac_loss 1 Sample.guided_loss)
     = S754_finite false 8388608 (-21).
Proof. split; [reflexivity | vm_compute; reflexivity]. Qed.

(** ** The three attributes of the class *)

(** [_make_loss] leaves the three attributes as its collaborators leave
    them. *)
Lemma make_loss_frame (E : collaborators) (w : world) :
  keep_weights E -> same_weights w (final (_make_loss E w)).
Proof.
  intros (_ & Hb & Hc). run_all.
  all: project; use_frames Hb Hc.
  all: unfold same_weights in *;
       cbn [emit expert_loss aac_lambda guided_lambda].
  all: intuition congruence.
Qed.

Lemma make_loss_never_stores (E : collaborators) (w : world) :
  select is_store (trace (_make_loss E w)) = [].
Proof. run_all. all: project; reflexivity. Qed.

Lemma make_loss_reads_weights (E : collaborators) (w : world)
    (x : tensor * list summary) :
  outcome (_make_loss E w) = Ok x ->
  In Load_expert_loss (ops (trace (_make_loss E w)))
  /\ In Load_aac_lambda (ops (trace (_make_loss E w)))
  /\ In Load_guided_lambda (ops (trace (_make_loss E w))).
Proof.
  run_all. all: project; intros H; try discriminate H.
  cbn. intuition.
Qed.

(** The constructor assigns, then calls the base initializer, and a
    construction that succeeds leaves the state that the base initializer
    left. *)
Lemma init_run (E : collaborators) (c : init_call) (w : world)
    (f : callable) (a l : float) (r : runner) (m : list string) (n : string)
    (kw : gmap string value) :
  bind_params c = InitParams f a l r m n kw ->
  exists flag rest,
    trace (__init__ E c w)
    = Entry (Store_expert_loss f) None
        :: Entry (Store_aac_lambda a) None
        :: Entry (Store_guided_lambda l) None
        :: Entry (Call_base_init (BaseCall r m n kw)) flag
        :: rest
    /\ select is_store rest = []
    /\ (outcome (__init__ E c w) = Ok tt ->
        final (__init__ E c w)
        = snd (BaseAAC_init E (BaseCall r m n kw) (assigned f a l w))).
Proof.
  intros Hp. unfold __init__. rewrite Hp. unfold assigned. run_all.
  all: project; do 2 eexists; split; [reflexivity|]; split; [reflexivity|].
  all: intros H; try discriminate H; reflexivity.
Qed.

(** C10: with collaborators that do not assign the three attributes
    themselves, the constructor assigns [expert_loss], [aac_lambda] and
    [guided_lambda] from its arguments before it calls the base
    initializer and assigns nothing afterwards, so that after a successful
    construction they are the arguments; [_make_loss] assigns no
    attribute and leaves the three as they were, and a call that returns
    has read each of them. *)
Theorem weights_assigned_then_kept (E : collaborators) (c : init_call)
    (w w' : world) (f : callable) (a l : float) (r : runner)
    (m : list string) (n : string) (kw : gmap string value) :
  keep_weights E ->
  bind_params c = InitParams f a l r m n kw ->
  (exists flag rest,
     trace (__init__ E c w)
     = Entry (Store_expert_loss f) None
         :: Entry (Store_aac_lambda a) None
         :: Entry (Store_guided_lambda l) None
         :: Entry (Call_base_init (BaseCall r m n kw)) flag
         :: rest
     /\ select is_store rest = [])
  /\ (outcome (__init__ E c w) = Ok tt ->
      expert_loss (final (__init__ E c w)) = Some f
      /\ aac_lambda (final (__init__ E c w)) = Some a
      /\ guided_lambda (final (__init__ E c w)) = Some l)
  /\ select is_store (trace (_make_loss E w')) = []
  /\ same_weights w' (final (_make_loss E w'))
  /\ (forall x, outcome (_make_loss E w') = Ok x ->
        In Load_expert_loss (ops (trace (_make_loss E w')))
        /\ In Load_aac_lambda (ops (trace (_make_loss E w')))
        /\ In Load_guided_lambda (ops (trace (_make_loss E w')))).
Proof.
  intros Hk Hp.
  destruct (init_run E c w f a l r m n kw Hp) as (flag & rest & Ht & Hs & Hf).
  split; [eauto|].
  split.
  - intros Hok. rewrite (Hf Hok).
    destruct Hk as (Hi & _ & _).
    destruct (Hi (BaseCall r m n kw) (assigned f a l w)) as (H1 & H2 & H3).
    rewrite H1, H2, H3. repeat split.
  - split; [apply make_loss_never_stores|].
    split; [now apply make_loss_frame|].
    apply make_loss_reads_weights.
Qed.

(** The collaborators of the sample do not assign the three attributes. *)
Lemma sample_loss_side_keeps_weights : keep_weights Sample.loss_side.
Proof.
  repeat split; cbn; try reflexivity.
  all: destruct f; destruct kw; reflexivity.
Qed.

Lemma sample_keeps_weights : keep_weights Sample.everything.
Proof.
  split; [|split].
  - intros [r m n k] w. cbn [BaseAAC_init Sample.everything].
    unfold Sample.base_init.
    destruct (k !! "env"); [|repeat split].
    unfold Sample.method.
    set (w1 := World _ _ _ _ _ _ _).
    pose proof (make_loss_frame Sample.loss_side w1
                  sample_loss_side_keeps_weights) as H.
    unfold final in H.
    destruct (_make_loss Sample.loss_side w1) as [[tr [x|e]] w2];
      cbn [snd] in *; exact H.
  - intros w. repeat split.
  - intros f kw w. destruct f, kw; repeat split.
Qed.

Lemma weights_assigned_then_kept_witness :
  outcome (__init__ Sample.everything Sample.weighted_call fresh) = Ok tt
  /\ expert_loss (final (__init__ Sample.everything Sample.weighted_call fresh))
     = Some guided_aac_loss_def_0_1
  /\ aac_lambda (final (__init__ Sample.everything Sample.weighted_call fresh))
     = Some 0.5%float
  /\ guided_lambda
       (final (__init__ Sample.everything Sample.weighted_call fresh))
     = Some 2%float
  /\ same_weights
       (Sample.ready guided_aac_loss_def_0_1 0.5 2)
       (final (_make_loss Sample.everything
                 (Sample.ready guided_aac_loss_def_0_1 0.5 2))).
Proof.
  destruct (weights_assigned_then_kept Sample.everything
              Sample.weighted_call fresh
              (Sample.ready guided_aac_loss_def_0_1 0.5 2)
              guided_aac_loss_def_0_1 0.5 2 VerboseEnvRunnerFn
              ["action_prob"; "value_fn"; "lstm_1_h"; "lstm_2_h"]
              "GuidedA3C" {[ "env" := PyObj 0 ]}
              sample_keeps_weights eq_refl)
    as (_ & Hattrs & _ & Hframe & _).
  assert (Hok : outcome (__init__ Sample.everything Sample.weighted_call fresh)
                = Ok tt)
    by (vm_compute; reflexivity).
  destruct (Hattrs Hok) as (H1 & H2 & H3).
  repeat split; assumption.
Defined.

(** ** The course of [_make_loss] in every call *)

(** X1: in every call, building the base loss is the first operation of
    [_make_loss], and it is done once. *)
Theorem make_loss_builds_base_first (E : collaborators) (w : world) :
  exists flag rest,
    trace (_make_loss E w) = Entry Call_make_base_loss flag :: rest
    /\ select is_base_loss rest = [].
Proof.
  run_all.
  all: project; do 2 eexists; split; reflexivity.
Qed.

(** X2: in every call the expert loss is called at most once.  It is
    called when the base loss is built and the object then has the
    attributes [expert_loss] and [local_network]: the callable is the one
    held by [expert_loss], [pi_actions] and [expert_actions] are
    [on_logits] and [expert_actions] of that network, with ['on_policy']
    and [verbose=True].  In every other call it is not called. *)
Theorem make_loss_expert_at_most_once (E : collaborators) (w : world) :
  match _make_base_loss E w with
  | (Ok _, w1) =>
      match expert_loss w1, local_network w1 with
      | Some f, Some net =>
          select is_expert_call (trace (_make_loss E w))
          = [Call_expert_loss f
               (LossCall (on_logits net) (expert_actions net)
                         "on_policy" true)]
      | _, _ => select is_expert_call (trace (_make_loss E w)) = []
      end
  | (Raise _, _) => select is_expert_call (trace (_make_loss E w)) = []
  end.
Proof.
  run_all.
  all: project; reflexivity.
Qed.

(** X3: a call of [_make_loss] that raises has not called the logger. *)
Theorem make_loss_failure_not_logged (E : collaborators) (w : world)
    (e : exn) :
  outcome (_make_loss E w) = Raise e ->
  select is_log_call (trace (_make_loss E w)) = [].
Proof.
  run_all.
  all: project; intros H; try discriminate H; reflexivity.
Qed.

Lemma make_loss_failure_not_logged_witness :
  select is_log_call
    (trace (_make_loss Sample.loss_side (Sample.ready (loss_fn 7) 1 1)))
  = [].
Proof.
  apply (make_loss_failure_not_logged Sample.loss_side
           (Sample.ready (loss_fn 7) 1 1) Sample.shape_error).
  reflexivity.
Defined.

(** ** Attributes that are not set *)

Section MissingBeforeExpert.

Variable E : collaborators.
Variables w w1 : world.
Variables (b : tensor) (s : list summary).

Hypothesis base_built : _make_base_loss E w = (Ok (b, s), w1).

(** X5: when the base loss is built but the object has no [expert_loss]
    or no [local_network], [_make_loss] raises the [AttributeError] of the
    first of the two that is missing, in the state left by the base loss,
    and the expert loss is not called. *)
Theorem make_loss_missing_expert_or_network :
  expert_loss w1 = None \/ local_network w1 = None ->
  outcome (_make_loss E w)
  = Raise (AttributeError
             (match expert_loss w1 with
              | None => "expert_loss"
              | Some _ => "local_network"
              end))
  /\ final (_make_loss E w) = w1
  /\ select is_expert_call (trace (_make_loss E w)) = [].
Proof.
  intros H. run_method. step. rewrite base_built. step.
  destruct (expert_loss w1) as [f|]; step.
  - destruct H as [H|H]; [discriminate H|]. rewrite H. step.
    project. repeat split.
  - project. repeat split.
Qed.

End MissingBeforeExpert.

Lemma make_loss_missing_expert_or_network_witness :
  outcome (_make_loss Sample.loss_side
             (Sample.unwired guided_aac_loss_def_0_3 1 1))
  = Raise (AttributeError "local_network")
  /\ final (_make_loss Sample.loss_side
              (Sample.unwired guided_aac_loss_def_0_3 1 1))
     = Sample.unwired guided_aac_loss_def_0_3 1 1
  /\ select is_expert_call
       (trace (_make_loss Sample.loss_side
                 (Sample.unwired guided_aac_loss_def_0_3 1 1)))
     = [].
Proof.
  apply (make_loss_missing_expert_or_network Sample.loss_side
           (Sample.unwired guided_aac_loss_def_0_3 1 1)
           (Sample.unwired guided_aac_loss_def_0_3 1 1)
           Sample.aac_loss Sample.aac_summaries eq_refl).
  right. reflexivity.
Defined.

Section MissingAfterExpert.

Variable E : collaborators.
Variables w w1 w2 : world.
Variables (b g : tensor) (s t : list summary).
Variables (f : callable) (net : network) (a l : float).

Hypothesis base_built : _make_base_loss E w = (Ok (b, s), w1).
Hypothesis expert_set : expert_loss w1 = Some f.
Hypothesis network_set : local_network w1 = Some net.
Hypothesis expert_built :
  call E f (LossCall (on_logits net) (expert_actions net) "on_policy" true) w1
  = (Ok (g, t), w2).
Hypothesis aac_set : aac_lambda w2 = Some a.
Hypothesis guided_set : guided_lambda w2 = Some l.

(** X6: when both losses are built and the weights are set but the object
    has no logger, [_make_loss] raises [AttributeError] for [log] instead
    of returning the loss it composed: the state is the one left by the
    expert loss and nothing is logged. *)
Theorem make_loss_missing_logger :
  log w2 = None ->
  outcome (_make_loss E w) = Raise (AttributeError "log")
  /\ final (_make_loss E w) = w2
  /\ select is_log_call (trace (_make_loss E w)) = []
  /\ select is_expert_call (trace (_make_loss E w))
     = [Call_expert_loss f
          (LossCall (on_logits net) (expert_actions net) "on_policy" true)].
Proof.
  intros Hlog. run_method.
  repeat (step;
          first [ rewrite base_built | rewrite expert_set
                | rewrite network_set | rewrite expert_built
                | rewrite aac_set | rewrite guided_set
                | rewrite Hlog ]).
  project. repeat split.
Qed.

End MissingAfterExpert.

Lemma make_loss_missing_logger_witness :
  outcome (_make_loss Sample.loss_side
             (Sample.unlogged guided_aac_loss_def_0_3 0.5 2))
  = Raise (AttributeError "log")
  /\ final (_make_loss Sample.loss_side
              (Sample.unlogged guided_aac_loss_def_0_3 0.5 2))
     = Sample.unlogged guided_aac_loss_def_0_3 0.5 2
  /\ select is_log_call
       (trace (_make_loss Sample.loss_side
                 (Sample.unlogged guided_aac_loss_def_0_3 0.5 2)))
     = []
  /\ select is_expert_call
       (trace (_make_loss Sample.loss_side
                 (Sample.unlogged guided_aac_loss_def_0_3 0.5 2)))
     = [Call_expert_loss guided_aac_loss_def_0_3
          (LossCall (on_logits Sample.net) (expert_actions Sample.net)
                    "on_policy" true)].
Proof.
  apply (make_loss_missing_logger Sample.loss_side
           (Sample.unlogged guided_aac_loss_def_0_3 0.5 2)
           (Sample.unlogged guided_aac_loss_def_0_3 0.5 2)
           (Sample.unlogged guided_aac_loss_def_0_3 0.5 2)
           Sample.aac_loss Sample.guided_loss
           Sample.aac_summaries Sample.guided_summaries
           guided_aac_loss_def_0_3 Sample.net 0.5 2);
    reflexivity.
Defined.

(** ** The value of the composed loss *)

Lemma fmul_nan_r (d : dtype) (x : spec_float) : fmul d x S754_nan = S754_nan.
Proof. destruct x; reflexivity. Qed.

Lemma fadd_nan_l (d : dtype) (y : spec_float) : fadd d S754_nan y = S754_nan.
Proof. reflexivity. Qed.

Lemma fadd_nan_r (d : dtype) (x : spec_float) : fadd d x S754_nan = S754_nan.
Proof. destruct x; reflexivity. Qed.

(** Zero times an infinity or a NaN is a NaN. *)
Lemma fmul_zero_nonfinite (d : dtype) (s : bool) (x : spec_float) :
  finite x = false -> fmul d (S754_zero s) x = S754_nan.
Proof. destruct x; try discriminate; reflexivity. Qed.

Section LossValue.

Variable E : collaborators.
Variables w w1 w2 : world.
Variables (b g : tensor) (s t : list summary).
Variables (f : callable) (net : network) (a l : float) (lg : logger).

Hypothesis base_built : _make_base_loss E w = (Ok (b, s), w1).
Hypothesis expert_set : expert_loss w1 = Some f.
Hypothesis network_set : local_network w1 = Some net.
Hypothesis expert_built :
  call E f (LossCall (on_logits net) (expert_actions net) "on_policy" true) w1
  = (Ok (g, t), w2).
Hypothesis aac_set : aac_lambda w2 = Some a.
Hypothesis guided_set : guided_lambda w2 = Some l.
Hypothesis log_set : log w2 = Some lg.

Lemma returned_loss :
  outcome (_make_loss E w) = Ok (composed a b l g, s ++ t).
Proof.
  now rewrite (make_loss_run E w w1 w2 b g s t f net a l lg).
Qed.

(** X7: a NaN in the value of either upstream loss makes the value of
    the loss returned by [_make_loss] a NaN, whatever the two weights
    are. *)
Theorem nan_loss_is_nan (d : dtype) (feed : string -> spec_float) :
  eval d feed b = S754_nan \/ eval d feed g = S754_nan ->
  exists loss sums,
    outcome (_make_loss E w) = Ok (loss, sums)
    /\ eval d feed loss = S754_nan.
Proof.
  intros H. exists (composed a b l g), (s ++ t).
  split; [exact returned_loss|].
  cbn [composed eval]. destruct H as [H|H]; rewrite H, fmul_nan_r.
  - apply fadd_nan_l.
  - apply fadd_nan_r.
Qed.

(** X8: a zero weight does not hide a loss that is not finite: with
    [aac_lambda = 0] and a base loss whose value is an infinity or a NaN,
    or with [guided_lambda = 0] and such an expert loss, the value of the
    loss returned by [_make_loss] is a NaN. *)
Theorem zero_weight_nonfinite_loss (d : dtype) (feed : string -> spec_float) :
  (is_zero a = true /\ finite (eval d feed b) = false)
  \/ (is_zero l = true /\ finite (eval d feed g) = false) ->
  exists loss sums,
    outcome (_make_loss E w) = Ok (loss, sums)
    /\ eval d feed loss = S754_nan.
Proof.
  intros H. exists (composed a b l g), (s ++ t).
  split; [exact returned_loss|].
  cbn [composed eval]. destruct H as [[Hz Hf]|[Hz Hf]].
  - destruct (cast_zero d a Hz) as [sa ->].
    rewrite (fmul_zero_nonfinite d sa _ Hf). apply fadd_nan_l.
  - destruct (cast_zero d l Hz) as [sl ->].
    rewrite (fmul_zero_nonfinite d sl _ Hf). apply fadd_nan_r.
Qed.

(** X9: a weight of 1.0 leaves its loss as it is: in a run in which no
    subnormal value occurs, with [aac_lambda = 1.0] the value of the loss
    returned is [b + guided_lambda * g], and with [guided_lambda = 1.0]
    it is [aac_lambda * b + g]. *)
Theorem unit_weight_keeps_loss (d : dtype) (feed : string -> spec_float) :
  no_subnormal d feed (Add (Mul (Const a) b) (Mul (Const l) g)) = true ->
  a = 1%float \/ l = 1%float ->
  exists loss sums,
    outcome (_make_loss E w) = Ok (loss, sums)
    /\ ((a = 1%float
         /\ eval d feed loss
            = fadd d (eval d feed b)
                     (fmul d (cast d (Prim2SF l)) (eval d feed g)))
        \/ (l = 1%float
            /\ eval d feed loss
               = fadd d (fmul d (cast d (Prim2SF a)) (eval d feed b))
                        (eval d feed g))).
Proof.
  intros Hn H. exists (composed a b l g), (s ++ t).
  split; [exact returned_loss|].
  destruct (no_subnormal_operands d feed a l b g Hn) as [Hb Hg].
  cbn [composed eval]. destruct H as [H|H]; [left|right];
    (split; [exact H|]); rewrite H; now rewrite fmul_one_l.
Qed.

End LossValue.

Lemma nan_loss_is_nan_witness :
  exists loss sums,
    outcome (_make_loss Sample.loss_side
               (Sample.ready guided_aac_loss_def_0_3 0 2))
    = Ok (loss, sums)
    /\ eval float32 (Sample.feed S754_nan one32) loss = S754_nan.
Proof.
  apply (nan_loss_is_nan Sample.loss_side
           (Sample.ready guided_aac_loss_def_0_3 0 2)
           (Sample.ready guided_aac_loss_def_0_3 0 2)
           (Sample.ready guided_aac_loss_def_0_3 0 2)
           Sample.aac_loss Sample.guided_loss
           Sample.aac_summaries Sample.guided_summaries
           guided_aac_loss_def_0_3 Sample.net 0 2 Sample.the_logger
           eq_refl eq_refl eq_refl eq_refl eq_refl eq_refl eq_refl
           float32 (Sample.feed S754_nan one32)).
  left. reflexivity.
Defined.

Lemma zero_weight_nonfinite_loss_witness :
  exists loss sums,
    outcome (_make_loss Sample.loss_side
               (Sample.ready guided_aac_loss_def_0_3 2 0))
    = Ok (loss, sums)
    /\ eval float32 (Sample.feed three32 (S754_infinity true)) loss
       = S754_nan.
Proof.
  apply (zero_weight_nonfinite_loss Sample.loss_side
           (Sample.ready guided_aac_loss_def_0_3 2 0)
           (Sample.ready guided_aac_loss_def_0_3 2 0)
           (Sample.ready guided_aac_loss_def_0_3 2 0)
           Sample.aac_loss Sample.guided_loss
           Sample.aac_summaries Sample.guided_summaries
           guided_aac_loss_def_0_3 Sample.net 2 0 Sample.the_logger
           eq_refl eq_refl eq_refl eq_refl eq_refl eq_refl eq_refl
           float32 (Sample.feed three32 (S754_infinity true))).
  right. split; reflexivity.
Defined.

Lemma unit_weight_keeps_loss_witness :
  exists loss sums,
    outcome (_make_loss Sample.loss_side
               (Sample.ready guided_aac_loss_def_0_3 1 2))
    = Ok (loss, sums)
    /\ ((1%float = 1%float
         /\ eval float32 (Sample.feed three32 one32) loss
            = fadd float32
                (eval float32 (Sample.feed three32 one32) Sample.aac_loss)
                (fmul float32 (cast float32 (Prim2SF 2))
                      (eval float32 (Sample.feed three32 one32)
                            Sample.guided_loss)))
        \/ (2%float = 1%float
            /\ eval float32 (Sample.feed three32 one32) loss
               = fadd float32
                   (fmul float32 (cast float32 (Prim2SF 1))
                         (eval float32 (Sample.feed three32 one32)
                               Sample.aac_loss))
                   (eval float32 (Sample.feed three32 one32)
                         Sample.guided_loss))).
Proof.
  apply (unit_weight_keeps_loss Sample.loss_side
           (Sample.ready guided_aac_loss_def_0_3 1 2)
           (Sample.ready guided_aac_loss_def_0_3 1 2)
           (Sample.ready guided_aac_loss_def_0_3 1 2)
           Sample.aac_loss Sample.guided_loss
           Sample.aac_summaries Sample.guided_summaries
           guided_aac_loss_def_0_3 Sample.net 1 2 Sample.the_logger
           eq_refl eq_refl eq_refl eq_refl eq_refl eq_refl eq_refl
           float32 (Sample.feed three32 one32));
    [reflexivity | left; reflexivity].
Defined.

(** ** The outcomes of the constructor *)

Section Construction.

Variable E : collaborators.
Variables (c : init_call) (w w1 : world).
Variables (f : callable) (a l : float) (r : runner) (m : list string).
Variables (n : string) (kw : gmap string value).

Hypothesis bound : bind_params c = InitParams f a l r m n kw.

(** X10: when the base initializer returns, the constructor returns
    without having touched the logger: it has assigned the three
    attributes and called the base initializer, and the object is in the
    state that the base initializer left. *)
Theorem init_succeeds_silently :
  BaseAAC_init E (BaseCall r m n kw) (assigned f a l w) = (Ok tt, w1) ->
  __init__ E c w
  = ([ Entry (Store_expert_loss f) None;
       Entry (Store_aac_lambda a) None;
       Entry (Store_guided_lambda l) None;
       Entry (Call_base_init (BaseCall r m n kw)) None ],
     Ok tt, w1).
Proof.
  intros Hb. unfold __init__. rewrite bound. run_method. step.
  unfold assigned in Hb. rewrite Hb. reflexivity.
Qed.

(** X11: when the base initializer raises [e] and the object has a logger
    by then, the constructor hands the logger one record, at level error,
    with the fixed message and the exception [e], and raises a
    [RuntimeError] with the same fixed message, whatever [e] is. *)
Theorem init_logs_then_raises (e : exn) (lg : logger) :
  BaseAAC_init E (BaseCall r m n kw) (assigned f a l w) = (Raise e, w1) ->
  log w1 = Some lg ->
  outcome (__init__ E c w) = Raise (RuntimeError init_msg)
  /\ select is_log_call (trace (__init__ E c w))
     = [Call_log lg ERROR init_msg (Some e)]
  /\ final (__init__ E c w)
     = emit (LogRecord (channel lg) ERROR init_msg (Some e)) w1.
Proof.
  intros Hb Hl. unfold __init__. rewrite bound. run_method. step.
  unfold assigned in Hb. rewrite Hb. step. rewrite Hl. step.
  project. repeat split.
Qed.

(** X12: when the base initializer raises [e] and the object has no
    logger yet, the handler of the constructor fails on [self.log]: the
    caller gets an [AttributeError], no record is made and the state is
    the one that the base initializer left, so that [e] is neither
    logged nor raised. *)
Theorem init_handler_fails_without_logger (e : exn) :
  BaseAAC_init E (BaseCall r m n kw) (assigned f a l w) = (Raise e, w1) ->
  log w1 = None ->
  outcome (__init__ E c w) = Raise (AttributeError "log")
  /\ select is_log_call (trace (__init__ E c w)) = []
  /\ final (__init__ E c w) = w1.
Proof.
  intros Hb Hl. unfold __init__. rewrite bound. run_method. step.
  unfold assigned in Hb. rewrite Hb. step. rewrite Hl. step.
  project. repeat split.
Qed.

End Construction.

Lemma init_succeeds_silently_witness :
  __init__ Sample.everything Sample.weighted_call fresh
  = ([ Entry (Store_expert_loss guided_aac_loss_def_0_1) None;
       Entry (Store_aac_lambda 0.5) None;
       Entry (Store_guided_lambda 2) None;
       Entry (Call_base_init (forwarded Sample.weighted_call)) None ],
     Ok tt,
     snd (BaseAAC_init Sample.everything (forwarded Sample.weighted_call)
            (assigned guided_aac_loss_def_0_1 0.5 2 fresh))).
Proof.
  apply (init_succeeds_silently Sample.everything Sample.weighted_call fresh
           (snd (BaseAAC_init Sample.everything
                   (forwarded Sample.weighted_call)
                   (assigned guided_aac_loss_def_0_1 0.5 2 fresh)))
           guided_aac_loss_def_0_1 0.5 2 VerboseEnvRunnerFn
           ["action_prob"; "value_fn"; "lstm_1_h"; "lstm_2_h"]
           "GuidedA3C" {[ "env" := PyObj 0 ]} eq_refl).
  vm_compute. reflexivity.
Defined.

Lemma init_logs_then_raises_witness :
  outcome (__init__ Sample.everything Sample.failing_call fresh)
  = Raise (RuntimeError init_msg)
  /\ select is_log_call
       (trace (__init__ Sample.everything Sample.failing_call fresh))
     = [Call_log Sample.the_logger ERROR init_msg (Some Sample.shape_error)]
  /\ final (__init__ Sample.everything Sample.failing_call fresh)
     = emit (LogRecord (channel Sample.the_logger) ERROR init_msg
                       (Some Sample.shape_error))
            (Sample.ready (loss_fn 7) 1 1).
Proof.
  apply (init_logs_then_raises Sample.everything Sample.failing_call fresh
           (Sample.ready (loss_fn 7) 1 1)
           (loss_fn 7) 1 1 VerboseEnvRunnerFn
           ["action_prob"; "value_fn"; "lstm_1_h"; "lstm_2_h"]
           "GuidedA3C" {[ "env" := PyObj 0 ]} eq_refl
           Sample.shape_error Sample.the_logger).
  - vm_compute. reflexivity.
  - reflexivity.
Defined.

Lemma init_handler_fails_without_logger_witness :
  outcome (__init__ Sample.everything no_arguments fresh)
  = Raise (AttributeError "log")
  /\ select is_log_call
       (trace (__init__ Sample.everything no_arguments fresh))
     = []
  /\ final (__init__ Sample.everything no_arguments fresh)
     = assigned guided_aac_loss_def_0_3 1 1 fresh.
Proof.
  apply (init_handler_fails_without_logger Sample.everything no_arguments
           fresh (assigned guided_aac_loss_def_0_3 1 1 fresh)
           guided_aac_loss_def_0_3 1 1 VerboseEnvRunnerFn
           ["action_prob"; "value_fn"; "lstm_1_h"; "lstm_2_h"]
           "GuidedA3C" ∅ eq_refl Sample.missing_env).
  - vm_compute. reflexivity.
  - reflexivity.
Defined.

